(** * Landsat tile catalogue: index construction and query resolution

    A shallow embedding of [torchgeo/datasets/landsat.py]: the constructor
    [Landsat.__init__], which scans a directory and fills a three-dimensional
    index, and [Landsat.__getitem__], which resolves a bounding box query to
    a pixel window read from one tile.

    Conventions of the embedding.
    - Coordinates, timestamps and pixel values are exact integers ([Z]);
      rounding of Python floats is outside the model.
    - The library calls the module makes ([glob.iglob], [datetime.strptime],
      [datetime.timestamp], [rasterio.open]), the traversal order of the
      R-tree and the property [bounds] inherited from [GeoDataset] are the
      fields of a record [World]; every statement quantifies over all
      worlds.
    - Exceptions are values of [exn]; a computation is a function from the
      trace of raster calls made so far to an outcome and the new trace. *)

From Stdlib Require Import ZArith List String Ascii Bool Lia Permutation.
Import ListNotations.
Open Scope Z_scope.

(** ** Strings and paths *)

Module Str.

(** [s.split(sep)] for a one-character separator: never empty, one more
    field than there are separators. *)
Fixpoint split (sep : ascii) (s : string) : list string :=
  match s with
  | EmptyString => [EmptyString]
  | String c s' =>
      if Ascii.eqb c sep then EmptyString :: split sep s'
      else match split sep s' with
           | [] => [String c EmptyString]
           | t :: ts => String c t :: ts
           end
  end.

Definition startswith_char (c : ascii) (s : string) : bool :=
  match s with
  | EmptyString => false
  | String d _ => Ascii.eqb d c
  end.

Fixpoint endswith_char (c : ascii) (s : string) : bool :=
  match s with
  | EmptyString => false
  | String d EmptyString => Ascii.eqb d c
  | String _ s' => endswith_char c s'
  end.

Definition is_empty (s : string) : bool :=
  match s with EmptyString => true | _ => false end.

End Str.

Module OsPath.

Definition sep : ascii := "/"%char.

(** [posixpath.basename]: what follows the last separator. *)
Definition basename (p : string) : string :=
  last (Str.split sep p) EmptyString.

(** One step of the loop of [posixpath.join]. *)
Definition join2 (path b : string) : string :=
  if Str.startswith_char sep b then b
  else if Str.is_empty path || Str.endswith_char sep path then (path ++ b)%string
  else (path ++ String sep b)%string.

(** [os.path.join(a, *p)]. *)
Definition join (a : string) (p : list string) : string :=
  fold_left join2 p a.

End OsPath.

(** [l[i]] for a non-negative literal index; [None] stands for the
    [IndexError] Python raises out of range. *)
Definition getitem_list {A : Type} (l : list A) (i : nat) : option A :=
  nth_error l i.

(** ** Bounding boxes *)

(** [BoundingBox] is a six-tuple in the order
    [(minx, maxx, miny, maxy, mint, maxt)]. *)
Record BoundingBox : Type := mkBoundingBox {
  minx : Z; maxx : Z;
  miny : Z; maxy : Z;
  mint : Z; maxt : Z
}.

(** Modelled from the spec: [BoundingBox.intersects] is defined in
    [torchgeo/datasets/utils.py], which is not part of the sources at hand.
    Two boxes intersect iff all three axis intervals overlap, the intervals
    being closed (touching counts). *)
Definition intersects (a b : BoundingBox) : bool :=
  (minx a <=? maxx b) && (minx b <=? maxx a) &&
  (miny a <=? maxy b) && (miny b <=? maxy a) &&
  (mint a <=? maxt b) && (mint b <=? maxt a).

(** Axis-wise hull of two boxes. *)
Definition hull (a b : BoundingBox) : BoundingBox :=
  {| minx := Z.min (minx a) (minx b); maxx := Z.max (maxx a) (maxx b);
     miny := Z.min (miny a) (miny b); maxy := Z.max (maxy a) (maxy b);
     mint := Z.min (mint a) (mint b); maxt := Z.max (maxt a) (maxt b) |}.

(** ** The spatial-temporal index *)

Module RTree.

(** One stored entry: [index.insert(id, coordinates, obj)]; [bbox] is the
    six-tuple of coordinates as it was passed. *)
Record Item : Type := mkItem {
  id : Z;
  bbox : BoundingBox;
  object : string
}.

(** The index is [rtree.index.Index], created at line 59 by
    [Index(properties=Property(dimension=3, interleaved=False))]. The
    keyword [interleaved] is given to [Property], which ignores it, and not
    to [Index], whose own [interleaved] keeps its default [True]: the index
    reads a six-tuple [(c0, c1, c2, c3, c4, c5)] as the minima
    [(c0, c1, c2)] followed by the maxima [(c3, c4, c5)]. It holds the
    inserted entries, in insertion order; nothing is ever removed and no
    entry is suppressed as a duplicate. *)
Definition Index : Type := list Item.

Definition empty : Index := [].

(** The check every call makes on its coordinates: no minimum exceeds the
    maximum of its axis. For a tuple laid out as
    [(minx, maxx, miny, maxy, mint, maxt)] the three axes the index sees are
    [minx .. maxy], [maxx .. mint] and [miny .. maxt]. *)
Definition coordinates_ok (c : BoundingBox) : bool :=
  (minx c <=? maxy c) && (maxx c <=? mint c) && (miny c <=? maxt c).

(** Two tuples, read as the index reads them, share a point: the closed
    intervals overlap on each of the three axes. *)
Definition regions_meet (a b : BoundingBox) : bool :=
  (minx a <=? maxy b) && (minx b <=? maxy a) &&
  (maxx a <=? mint b) && (maxx b <=? mint a) &&
  (miny a <=? maxt b) && (miny b <=? maxt a).

(** [index.insert(i, coordinates, obj)]; [None] stands for the [RTreeError]
    raised when the coordinates fail the check. *)
Definition insert (idx : Index) (i : Z) (coordinates : BoundingBox)
    (obj : string) : option Index :=
  if coordinates_ok coordinates
  then Some (idx ++ [mkItem i coordinates obj])
  else None.

(** [index.intersection(query, objects=True)]: [None] stands for the
    [RTreeError] raised when the query fails the check; otherwise every
    stored entry whose region meets that of the query, in the order of the
    tree traversal. The traversal order is implementation-defined: it is the
    parameter [traverse], a rearrangement of the stored entries. *)
Definition intersection (traverse : Index -> list Item) (idx : Index)
    (query : BoundingBox) : option (list Item) :=
  if coordinates_ok query
  then Some (filter (fun it => regions_meet (bbox it) query) (traverse idx))
  else None.

End RTree.

(** ** Raster source, exceptions and the trace of raster calls *)

(** [rasterio.windows.Window(col_off, row_off, width, height)]. *)
Record Window : Type := mkWindow {
  col_off : Z; row_off : Z; width : Z; height : Z
}.

(** A two-dimensional array of integer samples, row by row. *)
Definition ndarray : Type := list (list Z).

(** An opened raster file: [f.bounds] is [(left, bottom, right, top)] and
    [f.read(band, window=...)] returns an array or fails. *)
Record DatasetReader : Type := mkDatasetReader {
  reader_bounds : Z * Z * Z * Z;
  reader_read : Z -> Window -> option ndarray
}.

(** A naive [datetime] as produced by a date-only format. *)
Record datetime : Type := mkDatetime { year : Z; month : Z; day : Z }.

(** A piece of a formatted message: literal text or a formatted box. *)
Inductive fpiece : Type :=
| Lit (s : string)
| Fmt (b : BoundingBox).

(** The exceptions of the module and of the calls it makes.
    [TimestampError] stands for what [time.timestamp()] raises for a date
    the platform cannot convert (a [ValueError] or an [OverflowError]);
    [RTreeError] carries the message of the index. *)
Inductive exn : Type :=
| IndexError (msg : list fpiece)
| ValueError (data : string) (format : string)
| TimestampError (time : datetime)
| RasterioIOError (path : string)
| RTreeError (msg : string)
| StopIteration.

Inductive event : Type :=
| EvOpen (path : string)
| EvRead (path : string) (band : Z) (w : Window)
| EvClose (path : string).

(** The environment the module runs in. *)
Record World : Type := mkWorld {
  (** [glob.iglob(pattern)]: the matching paths, in the order produced. *)
  iglob : string -> list string;
  (** [rasterio.open(path)]; [None] when the file cannot be opened. *)
  rasterio_open : string -> option DatasetReader;
  (** [datetime.strptime(data, format)]; [None] when it raises
      [ValueError]. *)
  strptime : string -> string -> option datetime;
  (** [datetime.timestamp()]; [None] when it raises. *)
  timestamp : datetime -> option Z;
  (** Traversal order of the R-tree. *)
  traverse : RTree.Index -> list RTree.Item;
  (** The property [bounds] that [Landsat] inherits from [GeoDataset]
      ([torchgeo/datasets/geo.py], not part of the sources at hand), as a
      function of the index: the box it returns, or the exception it
      raises. *)
  geo_bounds : RTree.Index -> exn + BoundingBox
}.

(** The traversal visits every stored entry exactly once. *)
Definition traversal_complete (w : World) : Prop :=
  forall idx, Permutation (traverse w idx) idx.

(** Computations: an outcome and the extended trace. *)
Definition M (A : Type) : Type := list event -> (exn + A) * list event.

Definition ret {A : Type} (a : A) : M A := fun tr => (inr a, tr).

Definition raise {A : Type} (e : exn) : M A := fun tr => (inl e, tr).

Definition bind {A B : Type} (m : M A) (k : A -> M B) : M B :=
  fun tr =>
    match m tr with
    | (inl e, tr') => (inl e, tr')
    | (inr a, tr') => k a tr'
    end.

Definition emit (e : event) : M unit := fun tr => (inr tt, tr ++ [e]).

Definition lift_option {A : Type} (o : option A) (e : exn) : M A :=
  match o with
  | Some a => ret a
  | None => raise e
  end.

(** [try: body finally: cleanup] where the cleanup cannot fail. *)
Definition finally {A : Type} (body : M A) (cleanup : M unit) : M A :=
  fun tr =>
    match body tr with
    | (r, tr') => (r, snd (cleanup tr'))
    end.

Declare Scope comp_scope.
Delimit Scope comp_scope with comp.
Notation "x <- m ;; k" := (bind m (fun x => k))
  (at level 61, m at next level, right associativity) : comp_scope.
Notation "m ;;; k" := (bind m (fun _ => k))
  (at level 61, right associativity) : comp_scope.
Open Scope comp_scope.

(** [with rasterio.open(path) as f: body f]: the file is closed when the
    block is left, also by an exception. *)
Definition with_open {A : Type} (w : World) (path : string)
    (body : DatasetReader -> M A) : M A :=
  f <- lift_option (rasterio_open w path) (RasterioIOError path) ;;
  emit (EvOpen path) ;;;
  finally (body f) (emit (EvClose path)).

(** A loop [for x in xs: acc = step acc x] that an exception leaves. *)
Fixpoint for_each {A S : Type} (xs : list A) (step : S -> A -> M S)
    (acc : S) : M S :=
  match xs with
  | [] => ret acc
  | x :: rest => acc' <- step acc x ;; for_each rest step acc'
  end.

(** ** The dataset *)

(** [ndarray.astype(np.int32)] on integer samples: two's-complement
    wrap-around to 32 bits. *)
Definition int32 (z : Z) : Z := (z + 2 ^ 31) mod 2 ^ 32 - 2 ^ 31.

Definition astype_int32 (a : ndarray) : ndarray := map (map int32) a.

(** [torch.tensor(image)] keeps the shape and the values. *)
Definition tensor : Type := ndarray.
Definition torch_tensor (a : ndarray) : tensor := a.

(** The returned dictionary, as its list of items. *)
Definition sample : Type := list (string * tensor).

(** The two abstract properties every subclass of [Landsat] defines. *)
Record LandsatClass : Type := mkLandsatClass {
  base_folder : string;
  band_names : list string
}.

Definition Landsat8 : LandsatClass :=
  {| base_folder := "landsat_8_9";
     band_names := ["B1"; "B2"; "B3"; "B4"; "B5"; "B6"; "B7"; "B8"; "B9";
                    "B10"; "B11"]%string |}.
Definition Landsat9 : LandsatClass := Landsat8.

Definition Landsat7 : LandsatClass :=
  {| base_folder := "landsat_7";
     band_names := ["B1"; "B2"; "B3"; "B4"; "B5"; "B6"; "B7"; "B8"]%string |}.

Definition Landsat4TM : LandsatClass :=
  {| base_folder := "landsat_4_5_tm";
     band_names := ["B1"; "B2"; "B3"; "B4"; "B5"; "B6"; "B7"]%string |}.
Definition Landsat5TM : LandsatClass := Landsat4TM.

Definition Landsat4MSS : LandsatClass :=
  {| base_folder := "landsat_4_5_mss";
     band_names := ["B1"; "B2"; "B3"; "B4"]%string |}.
Definition Landsat5MSS : LandsatClass := Landsat4MSS.

Definition Landsat1 : LandsatClass :=
  {| base_folder := "landsat_1_3";
     band_names := ["B4"; "B5"; "B6"; "B7"]%string |}.
Definition Landsat2 : LandsatClass := Landsat1.
Definition Landsat3 : LandsatClass := Landsat1.

(** The attributes [__init__] sets on the object. *)
Record Landsat : Type := mkLandsat {
  cls : LandsatClass;
  root : string;
  bands : list string;
  transforms : option (sample -> sample);
  index : RTree.Index
}.

(** [self.bounds]: the property inherited from [GeoDataset], evaluated on
    the index of the object. *)
Definition bounds (w : World) (self : Landsat) : exn + BoundingBox :=
  geo_bounds w (index self).

(** Evaluating an expression that returns or raises. *)
Definition lift_sum {A : Type} (r : exn + A) : M A :=
  match r with
  | inr a => ret a
  | inl e => raise e
  end.

Definition list_index_error : exn :=
  IndexError [Lit "list index out of range"].

Definition coordinates_error : exn :=
  RTreeError "Coordinates must not have minimums more than maximums".

Definition date_format : string := "%Y%m%d".

(** [bands if bands else self.band_names]. *)
Definition effective_bands (c : LandsatClass) (bands : list string)
    : list string :=
  match bands with
  | [] => band_names c
  | _ :: _ => bands
  end.

(** [os.path.join(root, self.base_folder, f"**_{band}.TIF")]. *)
Definition fileglob (c : LandsatClass) (root band : string) : string :=
  OsPath.join root [base_folder c; ("**_" ++ band ++ ".TIF")%string].

(** The body of the loop of [__init__] for one matched file. *)
Definition index_file (w : World) (idx : RTree.Index) (filename : string)
    : M RTree.Index :=
  token <- lift_option
             (getitem_list (Str.split "_" (OsPath.basename filename)) 3)
             list_index_error ;;
  time <- lift_option (strptime w token date_format)
                      (ValueError token date_format) ;;
  timestamp <- lift_option (timestamp w time) (TimestampError time) ;;
  with_open w filename (fun f =>
    let '(minx, miny, maxx, maxy) := reader_bounds f in
    let coords := mkBoundingBox minx maxx miny maxy timestamp timestamp in
    lift_option (RTree.insert idx 0 coords filename) coordinates_error).

(** [Landsat.__init__(self, root, bands, transforms)] for the subclass
    [c]. *)
Definition init (w : World) (c : LandsatClass) (root : string)
    (bands : list string) (transforms : option (sample -> sample))
    : M Landsat :=
  let self_bands := effective_bands c bands in
  band0 <- lift_option (getitem_list self_bands 0) list_index_error ;;
  idx <- for_each (iglob w (fileglob c root band0)) (index_file w)
                  RTree.empty ;;
  ret (mkLandsat c root self_bands transforms idx).

(** The defaults of the constructor's parameters. *)
Definition default_root : string := "data".
Definition default_bands : list string := [].
Definition default_transforms : option (sample -> sample) := None.

(** The window [__getitem__] builds from the query. *)
Definition query_window (query : BoundingBox) : Window :=
  mkWindow (minx query) (miny query)
           (maxx query - minx query) (maxy query - miny query).

(** [IndexError(f"query: {query} is not within bounds of the index:
    {self.bounds}")]. *)
Definition out_of_range (query : BoundingBox) (b : BoundingBox) : exn :=
  IndexError [Lit "query: "; Fmt query;
              Lit " is not within bounds of the index: "; Fmt b].

(** [next(hits)]. *)
Definition next {A : Type} (hits : list A) : M A :=
  lift_option (hd_error hits) StopIteration.

(** [f.read(band, window=window)] on the file opened from [path]. *)
Definition read (path : string) (f : DatasetReader) (band : Z)
    (window : Window) : M ndarray :=
  emit (EvRead path band window) ;;;
  lift_option (reader_read f band window) (RasterioIOError path).

(** [Landsat.__getitem__(self, query)]. *)
Definition getitem (w : World) (self : Landsat) (query : BoundingBox)
    : M sample :=
  self_bounds <- lift_sum (bounds w self) ;;
  if negb (intersects query self_bounds) then
    raise (out_of_range query self_bounds)
  else
    let window := query_window query in
    hits <- lift_option
              (RTree.intersection (traverse w) (index self) query)
              coordinates_error ;;
    hit <- next hits ;;
    let filename := RTree.object hit in
    image <- with_open w filename (fun f => read filename f 1 window) ;;
    let image := astype_int32 image in
    ret [("image"%string, torch_tensor image)].

(** Running a computation from the empty trace. *)
Definition run {A : Type} (m : M A) : (exn + A) * list event := m [].

(** ** A sample environment

    A small directory of Landsat 8 scenes, used to run the definitions on
    concrete inputs. *)

Module Sample.

Definition digit (c : ascii) : option Z :=
  let n := Z.of_nat (nat_of_ascii c) in
  if (48 <=? n) && (n <=? 57) then Some (n - 48) else None.

Fixpoint number (s : string) (acc : Z) : option Z :=
  match s with
  | EmptyString => Some acc
  | String c s' =>
      match digit c with
      | Some d => number s' (10 * acc + d)
      | None => None
      end
  end.

(** Eight decimal digits read as year, month and day. *)
Definition strptime_ymd (data format : string) : option datetime :=
  if negb (String.eqb format "%Y%m%d") then None
  else if negb (Nat.eqb (String.length data) 8) then None
  else
    match number (substring 0 4 data) 0,
          number (substring 4 2 data) 0,
          number (substring 6 2 data) 0 with
    | Some y, Some m, Some d =>
        if (1 <=? m) && (m <=? 12) && (1 <=? d) && (d <=? 31)
        then Some (mkDatetime y m d) else None
    | _, _, _ => None
    end.

(** Seconds from the epoch to midnight of the day, in UTC; the first year
    of the calendar is out of range. *)
Definition utc_timestamp (t : datetime) : option Z :=
  if year t <=? 1 then None
  else
    let y := if month t <=? 2 then year t - 1 else year t in
    let era := y / 400 in
    let yoe := y - era * 400 in
    let mp := (month t + 9) mod 12 in
    let doy := (153 * mp + 2) / 5 + day t - 1 in
    let doe := yoe * 365 + yoe / 4 - yoe / 100 + doy in
    Some ((era * 146097 + doe - 719468) * 86400).

(** The dataset-level bounds as the design describes them: the axis-wise
    minimum and maximum over the stored tuples; on an index without entries
    the property raises. *)
Definition hull_bounds (idx : RTree.Index) : exn + BoundingBox :=
  match idx with
  | [] => inl (RTreeError "no bounds")
  | it :: rest =>
      inr (fold_left (fun acc i => hull acc (RTree.bbox i)) rest
                     (RTree.bbox it))
  end.

Definition scene_a : string :=
  "data/landsat_8_9/LC08_L1TP_023032_20210622_20210629_01_T1_B1.TIF".
Definition scene_b : string :=
  "data/landsat_8_9/LC08_L1TP_023033_20210708_20210713_01_T1_B1.TIF".
Definition scene_c : string :=
  "data/landsat_8_9/LC08_L1TP_024032_20210622_20210629_01_T1_B1.TIF".
Definition scene_d : string :=
  "data/landsat_8_9/LC08_L1TP_025032_20210622_20210629_01_T1_B1.TIF".
Definition scene_e : string :=
  "data/landsat_8_9/LC08_L1TP_026032_20210622_20210629_01_T1_B1.TIF".
(** A scene dated in the first year of the calendar. *)
Definition scene_y1 : string :=
  "data/landsat_8_9/LC08_L1TP_027032_00010101_20210629_01_T1_B1.TIF".
(** A file the pattern matches whose name has only two fields. *)
Definition stray : string := "data/landsat_8_9/mosaic_B1.TIF".

(** A raster with one band whose samples echo the window asked for; the
    first sample of the last row does not fit 32 bits. *)
Definition echo (bounds : Z * Z * Z * Z) : DatasetReader :=
  {| reader_bounds := bounds;
     reader_read := fun band win =>
       if band =? 1
       then Some [[col_off win; row_off win];
                  [width win; height win];
                  [2147483668; -1]]
       else None |}.

(** A raster that opens but whose reads fail. *)
Definition broken (bounds : Z * Z * Z * Z) : DatasetReader :=
  {| reader_bounds := bounds;
     reader_read := fun _ _ => None |}.

Definition files (present : list (string * DatasetReader)) (path : string)
    : option DatasetReader :=
  match find (fun e => String.eqb (fst e) path) present with
  | Some e => Some (snd e)
  | None => None
  end.

Definition world (listing : list string)
    (present : list (string * DatasetReader)) : World :=
  {| iglob := fun pattern =>
       if String.eqb pattern "data/landsat_8_9/**_B1.TIF" then listing
       else [];
     rasterio_open := files present;
     strptime := strptime_ymd;
     timestamp := utc_timestamp;
     traverse := fun idx => idx;
     geo_bounds := hull_bounds |}.

(** Two overlapping scenes of different dates. *)
Definition overlapping : World :=
  world [scene_a; scene_b]
        [(scene_a, echo (0, 0, 100, 100)); (scene_b, echo (50, 50, 150, 150))].

(** Two scenes of one date with a gap between them on the x axis. *)
Definition gapped : World :=
  world [scene_a; scene_c]
        [(scene_a, echo (0, 0, 100, 100)); (scene_c, echo (200, 0, 300, 250))].

(** One scene, wider than it is high. *)
Definition flat : World :=
  world [scene_d] [(scene_d, echo (0, 0, 100, 10))].

(** A directory that also holds the stray file. *)
Definition with_stray : World :=
  world [scene_a; stray; scene_b]
        [(scene_a, echo (0, 0, 100, 100)); (stray, echo (0, 0, 10, 10));
         (scene_b, echo (50, 50, 150, 150))].

(** A directory whose second scene lies east of its own northern edge: its
    [minx] exceeds its [maxy]. *)
Definition with_eastern : World :=
  world [scene_a; scene_e; scene_b]
        [(scene_a, echo (0, 0, 100, 100)); (scene_e, echo (200, 0, 300, 100));
         (scene_b, echo (50, 50, 150, 150))].

(** A directory whose first scene carries a date that has no timestamp. *)
Definition with_year_one : World :=
  world [scene_y1; scene_a]
        [(scene_y1, echo (0, 0, 100, 100)); (scene_a, echo (0, 0, 100, 100))].

(** A directory with one scene that cannot be read. *)
Definition truncated : World :=
  world [scene_a] [(scene_a, broken (0, 0, 100, 100))].

(** What the constructor returns, or a dataset without tiles. *)
Definition built (w : World) (c : LandsatClass) : Landsat :=
  match run (init w c default_root default_bands default_transforms) with
  | (inr self, _) => self
  | (inl _, _) => mkLandsat c default_root [] None RTree.empty
  end.

(** Midnight of 22 June and of 8 July 2021. *)
Definition t_0622 : Z := 1624320000.
Definition t_0708 : Z := 1625702400.

(** The entries stored for the scenes. *)
Definition item_a : RTree.Item :=
  RTree.mkItem 0 (mkBoundingBox 0 100 0 100 t_0622 t_0622) scene_a.
Definition item_b : RTree.Item :=
  RTree.mkItem 0 (mkBoundingBox 50 150 50 150 t_0708 t_0708) scene_b.
Definition item_c : RTree.Item :=
  RTree.mkItem 0 (mkBoundingBox 200 300 0 250 t_0622 t_0622) scene_c.
Definition item_d : RTree.Item :=
  RTree.mkItem 0 (mkBoundingBox 0 100 0 10 t_0622 t_0622) scene_d.

(** A query inside [scene_a] on its date. *)
Definition inside_a : BoundingBox :=
  mkBoundingBox 10 30 20 40 t_0622 t_0622.
(** A query over the overlap of [scene_a] and [scene_b] and both dates. *)
Definition over_both : BoundingBox :=
  mkBoundingBox 60 70 60 70 t_0622 t_0708.
(** Two queries in the gap between [scene_a] and [scene_c]: x from 120 to
    130, where neither scene lies. *)
Definition in_gap : BoundingBox :=
  mkBoundingBox 120 130 20 140 t_0622 t_0622.
(** A query beyond every scene. *)
Definition far_away : BoundingBox :=
  mkBoundingBox 420 430 20 40 t_0622 t_0622.
(** A query across [scene_d]: x from 50 to 60, y from 0 to 60. *)
Definition across_d : BoundingBox :=
  mkBoundingBox 50 60 0 60 t_0622 t_0622.

End Sample.

(** ** Predicates used in the statements *)

Definition event_path (e : event) : string :=
  match e with
  | EvOpen p | EvRead p _ _ | EvClose p => p
  end.

Definition is_open (e : event) : bool :=
  match e with EvOpen _ => true | _ => false end.

Definition is_read (e : event) : bool :=
  match e with EvRead _ _ _ => true | _ => false end.

(** The signed 32-bit range. *)
Definition fits_int32 (z : Z) : Prop := - 2 ^ 31 <= z < 2 ^ 31.

(** The field of a file name that holds the acquisition date:
    [os.path.basename(filename).split("_")[3]]. *)
Definition date_token (filename : string) : option string :=
  getitem_list (Str.split "_" (OsPath.basename filename)) 3.

(** The coordinates built from [f.bounds] and the timestamp. *)
Definition coords_of (b : Z * Z * Z * Z) (timestamp : Z) : BoundingBox :=
  let '(minx, miny, maxx, maxy) := b in
  mkBoundingBox minx maxx miny maxy timestamp timestamp.

(** [it] is the entry stored for [filename]: the date field parses and
    converts, the file opens, the index accepts the coordinates, and the
    entry carries the bounds, the timestamp and the path. *)
Definition inserted (w : World) (filename : string) (it : RTree.Item)
    : Prop :=
  exists token time ts f,
    date_token filename = Some token /\
    strptime w token "%Y%m%d" = Some time /\
    timestamp w time = Some ts /\
    rasterio_open w filename = Some f /\
    RTree.coordinates_ok (coords_of (reader_bounds f) ts) = true /\
    it = RTree.mkItem 0 (coords_of (reader_bounds f) ts) filename.

(** A matched file is valid when every step of the loop body succeeds on
    it: the date field exists, parses and converts to a timestamp, the file
    opens, and the index accepts the coordinates. *)
Definition valid_file (w : World) (filename : string) : bool :=
  match date_token filename with
  | None => false
  | Some token =>
      match strptime w token date_format with
      | None => false
      | Some time =>
          match timestamp w time with
          | None => false
          | Some ts =>
              match rasterio_open w filename with
              | None => false
              | Some f =>
                  RTree.coordinates_ok (coords_of (reader_bounds f) ts)
              end
          end
      end
  end.

(** The exception the first failing step raises for a file that is not
    valid. *)
Definition scan_error (w : World) (filename : string) : exn :=
  match date_token filename with
  | None => list_index_error
  | Some token =>
      match strptime w token date_format with
      | None => ValueError token date_format
      | Some time =>
          match timestamp w time with
          | None => TimestampError time
          | Some _ =>
              match rasterio_open w filename with
              | None => RasterioIOError filename
              | Some _ => coordinates_error
              end
          end
      end
  end.

(** The raster calls made on a file that is not valid: none, unless the
    failing step is the insertion, which happens with the file open. *)
Definition scan_touch (w : World) (filename : string) : list event :=
  match date_token filename with
  | None => []
  | Some token =>
      match strptime w token date_format with
      | None => []
      | Some time =>
          match timestamp w time with
          | None => []
          | Some _ =>
              match rasterio_open w filename with
              | None => []
              | Some _ => [EvOpen filename; EvClose filename]
              end
          end
      end
  end.

(** The same dataset with another value of [self.transforms]. *)
Definition with_transforms (self : Landsat)
    (t : option (sample -> sample)) : Landsat :=
  mkLandsat (cls self) (root self) (bands self) t (index self).

(** A path made ready for a further component, as [posixpath.join] does:
    a separator is added unless the path is empty or ends with one. *)
Definition with_sep (path : string) : string :=
  if Str.is_empty path || Str.endswith_char OsPath.sep path then path
  else (path ++ "/")%string.

(** A folder name that is not empty and neither starts nor ends with the
    separator. *)
Definition plain_folder (c : LandsatClass) : bool :=
  negb (Str.is_empty (base_folder c)) &&
  negb (Str.startswith_char OsPath.sep (base_folder c)) &&
  negb (Str.endswith_char OsPath.sep (base_folder c)).

(** How many times the character [c] occurs in [s]. *)
Fixpoint count_char (c : ascii) (s : string) : nat :=
  match s with
  | EmptyString => 0%nat
  | String d s' => ((if Ascii.eqb d c then 1 else 0) + count_char c s')%nat
  end.

(** The raster calls of a scan that opens and closes each file in turn. *)
Definition open_close (files : list string) : list event :=
  flat_map (fun f => [EvOpen f; EvClose f]) files.

(** The sensor classes the module defines, aliases included. *)
Definition landsat_classes : list LandsatClass :=
  [Landsat1; Landsat2; Landsat3; Landsat4MSS; Landsat4TM; Landsat5MSS;
   Landsat5TM; Landsat7; Landsat8; Landsat9].

(** What the constructor does once the first band is known: the scan of
    the files the pattern of [band0] matches, and the object it sets up. *)
Definition scan_for (w : World) (c : LandsatClass) (dir : string)
    (self_bands : list string) (t : option (sample -> sample))
    (band0 : string) : (exn + Landsat) * list event :=
  match for_each (iglob w (fileglob c dir band0)) (index_file w)
                 RTree.empty [] with
  | (inl e, tr) => (inl e, tr)
  | (inr idx, tr) => (inr (mkLandsat c dir self_bands t idx), tr)
  end.

(** ** Auxiliary facts *)

Lemma int32_range (z : Z) : fits_int32 (int32 z).
Proof.
  unfold fits_int32, int32.
  pose proof (Z.mod_pos_bound (z + 2 ^ 31) (2 ^ 32) ltac:(lia)). lia.
Qed.

Lemma int32_congruent (z : Z) : (int32 z - z) mod 2 ^ 32 = 0.
Proof.
  unfold int32.
  rewrite (Z.mod_eq (z + 2 ^ 31) (2 ^ 32)) by lia.
  replace (z + 2 ^ 31 - 2 ^ 32 * ((z + 2 ^ 31) / 2 ^ 32) - 2 ^ 31 - z)
    with ((- ((z + 2 ^ 31) / 2 ^ 32)) * 2 ^ 32) by ring.
  apply Z.mod_mul. lia.
Qed.

Lemma int32_fixed (z : Z) : fits_int32 z -> int32 z = z.
Proof.
  unfold fits_int32, int32. intros H.
  rewrite Z.mod_small by lia. lia.
Qed.

Lemma filter_permutation {A : Type} (f : A -> bool) (l l' : list A) :
  Permutation l l' -> Permutation (filter f l) (filter f l').
Proof.
  induction 1 as [| x l l' _ IH | x y l | l l' l'' _ IH1 _ IH2]; simpl.
  - constructor.
  - destruct (f x); [constructor |]; exact IH.
  - destruct (f x), (f y); try apply Permutation_refl.
    apply perm_swap.
  - eapply Permutation_trans; eassumption.
Qed.

Lemma Forall2_right {A B : Type} (R : A -> B -> Prop) (P : B -> Prop)
    (l1 : list A) (l2 : list B) :
  (forall a b, R a b -> P b) -> Forall2 R l1 l2 -> Forall P l2.
Proof.
  intros HRP H. induction H as [| a b l1 l2 Hab _ IH].
  - constructor.
  - constructor; [exact (HRP a b Hab) | exact IH].
Qed.

(** The index reads a tuple that passed its check as a region that meets
    itself. *)
Lemma regions_meet_self (c : BoundingBox) :
  RTree.regions_meet c c = RTree.coordinates_ok c.
Proof.
  unfold RTree.regions_meet, RTree.coordinates_ok.
  destruct (minx c <=? maxy c), (maxx c <=? mint c), (miny c <=? maxt c);
    reflexivity.
Qed.

(** What [__getitem__] does, case by case. *)
Lemma getitem_outcome (w : World) (self : Landsat) (query : BoundingBox) :
  run (getitem w self query) =
  match bounds w self with
  | inl e => (inl e, [])
  | inr b =>
      if negb (intersects query b) then (inl (out_of_range query b), [])
      else
        match RTree.intersection (traverse w) (index self) query with
        | None => (inl coordinates_error, [])
        | Some [] => (inl StopIteration, [])
        | Some (hit :: _) =>
            let path := RTree.object hit in
            match rasterio_open w path with
            | None => (inl (RasterioIOError path), [])
            | Some f =>
                let trace := [EvOpen path;
                              EvRead path 1 (query_window query);
                              EvClose path] in
                match reader_read f 1 (query_window query) with
                | None => (inl (RasterioIOError path), trace)
                | Some a => (inr [("image"%string, astype_int32 a)], trace)
                end
            end
        end
  end.
Proof.
  unfold run, getitem. cbv [bind lift_sum ret raise].
  destruct (bounds w self) as [e | b]; [reflexivity |].
  destruct (negb (intersects query b)); [reflexivity |].
  destruct (RTree.intersection (traverse w) (index self) query)
    as [[| hit rest] |]; try reflexivity.
  cbv [bind next with_open finally read lift_option emit ret raise hd_error].
  destruct (rasterio_open w (RTree.object hit)) as [f |]; [| reflexivity].
  cbv [bind emit]; simpl.
  destruct (reader_read f 1 (query_window query)); reflexivity.
Qed.

(** The loop body of [__init__], case by case. *)
Lemma index_file_outcome (w : World) (idx : RTree.Index) (filename : string)
    (tr : list event) :
  index_file w idx filename tr =
  match date_token filename with
  | None => (inl list_index_error, tr)
  | Some token =>
      match strptime w token date_format with
      | None => (inl (ValueError token date_format), tr)
      | Some time =>
          match timestamp w time with
          | None => (inl (TimestampError time), tr)
          | Some ts =>
              match rasterio_open w filename with
              | None => (inl (RasterioIOError filename), tr)
              | Some f =>
                  let coords := coords_of (reader_bounds f) ts in
                  let tr' := (tr ++ [EvOpen filename])
                               ++ [EvClose filename] in
                  if RTree.coordinates_ok coords
                  then (inr (idx ++ [RTree.mkItem 0 coords filename]), tr')
                  else (inl coordinates_error, tr')
              end
          end
      end
  end.
Proof.
  unfold index_file, date_token.
  cbv [bind lift_option ret raise with_open finally emit].
  destruct (getitem_list (Str.split "_" (OsPath.basename filename)) 3)
    as [token |]; [| reflexivity].
  destruct (strptime w token date_format) as [time |]; [| reflexivity].
  destruct (timestamp w time) as [ts |]; [| reflexivity].
  destruct (rasterio_open w filename) as [f |]; [| reflexivity].
  unfold coords_of, RTree.insert.
  destruct (reader_bounds f) as [[[x0 y0] x1] y1]. cbv zeta.
  destruct (RTree.coordinates_ok (mkBoundingBox x0 x1 y0 y1 ts ts));
    reflexivity.
Qed.

Lemma index_file_valid (w : World) (idx : RTree.Index) (filename : string)
    (tr : list event) :
  valid_file w filename = true ->
  exists it,
    inserted w filename it /\
    index_file w idx filename tr =
      (inr (idx ++ [it]), (tr ++ [EvOpen filename]) ++ [EvClose filename]).
Proof.
  intros Hv. rewrite index_file_outcome.
  unfold valid_file in Hv. unfold inserted.
  destruct (date_token filename) as [token |]; [| discriminate].
  fold date_format.
  destruct (strptime w token date_format) as [time |] eqn:Et; [| discriminate].
  destruct (timestamp w time) as [ts |] eqn:Ets; [| discriminate].
  destruct (rasterio_open w filename) as [f |]; [| discriminate].
  cbv zeta. rewrite Hv.
  eexists. split; [| reflexivity].
  exists token, time, ts, f. auto 10.
Qed.

Lemma index_file_invalid (w : World) (idx : RTree.Index) (filename : string)
    (tr : list event) :
  valid_file w filename = false ->
  index_file w idx filename tr
  = (inl (scan_error w filename), tr ++ scan_touch w filename).
Proof.
  intros Hv. rewrite index_file_outcome.
  unfold valid_file in Hv. unfold scan_error, scan_touch.
  destruct (date_token filename) as [token |];
    [| rewrite app_nil_r; reflexivity].
  destruct (strptime w token date_format) as [time |];
    [| rewrite app_nil_r; reflexivity].
  destruct (timestamp w time) as [ts |];
    [| rewrite app_nil_r; reflexivity].
  destruct (rasterio_open w filename) as [f |];
    [| rewrite app_nil_r; reflexivity].
  cbv zeta. rewrite Hv, <- app_assoc. reflexivity.
Qed.

(** A scan of valid files stores one entry per file, in the order of the
    files, after the entries already there, opening and closing each. *)
Lemma scan_valid_trace (w : World) (files : list string) :
  forallb (valid_file w) files = true ->
  forall idx tr,
  exists items,
    for_each files (index_file w) idx tr
      = (inr (idx ++ items), tr ++ open_close files) /\
    Forall2 (inserted w) files items.
Proof.
  induction files as [| filename files IH]; intros Hall idx tr.
  - exists []. rewrite !app_nil_r. split; [reflexivity | constructor].
  - simpl in Hall. apply andb_true_iff in Hall as [Hv Hrest].
    destruct (index_file_valid w idx filename tr Hv) as (it & Hins & Hstep).
    destruct (IH Hrest (idx ++ [it])
                ((tr ++ [EvOpen filename]) ++ [EvClose filename]))
      as (items & Hrun & Hitems).
    exists (it :: items). split.
    + simpl for_each. unfold bind. rewrite Hstep, Hrun.
      unfold open_close. simpl flat_map.
      rewrite <- !app_assoc. reflexivity.
    + constructor; assumption.
Qed.

(** The scan stops at the first file that is not valid, with the exception
    of that file. *)
Lemma scan_stops_trace (w : World) (good : list string) (bad : string)
    (rest : list string) :
  forallb (valid_file w) good = true ->
  valid_file w bad = false ->
  forall idx tr,
    for_each (good ++ bad :: rest) (index_file w) idx tr
      = (inl (scan_error w bad), tr ++ open_close good ++ scan_touch w bad).
Proof.
  induction good as [| filename good IH]; intros Hall Hbad idx tr.
  - simpl. unfold bind.
    rewrite (index_file_invalid w idx bad tr Hbad). reflexivity.
  - simpl in Hall. apply andb_true_iff in Hall as [Hv Hrest].
    destruct (index_file_valid w idx filename tr Hv) as (it & _ & Hstep).
    simpl for_each. unfold bind. rewrite Hstep, (IH Hrest Hbad).
    unfold open_close. simpl flat_map.
    rewrite <- !app_assoc. reflexivity.
Qed.

(** The stored entries carry the paths of their files. *)
Lemma inserted_objects (w : World) (files : list string)
    (items : list RTree.Item) :
  Forall2 (inserted w) files items -> map RTree.object items = files.
Proof.
  intros H. induction H as [| filename it files its Hins _ IH]; simpl.
  - reflexivity.
  - destruct Hins as (token & time & ts & f & _ & _ & _ & _ & _ & ->).
    simpl. f_equal. exact IH.
Qed.

(** A scan that returns found every file valid. *)
Lemma scan_returns (w : World) (files : list string) :
  forall idx tr idx' tr',
  for_each files (index_file w) idx tr = (inr idx', tr') ->
  forallb (valid_file w) files = true.
Proof.
  induction files as [| filename files IH]; intros idx tr idx' tr' Hrun.
  - reflexivity.
  - simpl. destruct (valid_file w filename) eqn:Hv; simpl.
    + destruct (index_file_valid w idx filename tr Hv) as (it & _ & Hstep).
      simpl in Hrun. unfold bind in Hrun. rewrite Hstep in Hrun.
      eapply IH; eassumption.
    + simpl in Hrun. unfold bind in Hrun.
      rewrite (index_file_invalid w idx filename tr Hv) in Hrun.
      discriminate.
Qed.

(** The constructor, once the first band is known. *)
Lemma init_outcome (w : World) (c : LandsatClass) (root : string)
    (bands : list string) (transforms : option (sample -> sample)) :
  run (init w c root bands transforms) =
  match getitem_list (effective_bands c bands) 0 with
  | None => (inl list_index_error, [])
  | Some band0 =>
      scan_for w c root (effective_bands c bands) transforms band0
  end.
Proof.
  unfold run, init, scan_for. cbv [bind lift_option ret raise].
  destruct (getitem_list (effective_bands c bands) 0); reflexivity.
Qed.

(** What a constructor that returns has done. *)
Lemma init_returns (w : World) (c : LandsatClass) (dir : string)
    (names : list string) (t : option (sample -> sample))
    (self : Landsat) (trace : list event) :
  run (init w c dir names t) = (inr self, trace) ->
  exists band0,
    hd_error (effective_bands c names) = Some band0 /\
    self = mkLandsat c dir (effective_bands c names) t (index self) /\
    forallb (valid_file w) (iglob w (fileglob c dir band0)) = true /\
    Forall2 (inserted w) (iglob w (fileglob c dir band0)) (index self) /\
    trace = open_close (iglob w (fileglob c dir band0)).
Proof.
  intros Hrun. rewrite init_outcome in Hrun.
  change (getitem_list (effective_bands c names) 0)
    with (hd_error (effective_bands c names)) in Hrun.
  destruct (hd_error (effective_bands c names)) as [band0 |];
    [| discriminate].
  exists band0. split; [reflexivity |].
  unfold scan_for in Hrun.
  destruct (for_each (iglob w (fileglob c dir band0)) (index_file w)
              RTree.empty []) as [[e | idx] tr] eqn:Hscan; [discriminate |].
  injection Hrun as <- <-.
  pose proof (scan_returns w _ _ _ _ _ Hscan) as Hall.
  destruct (scan_valid_trace w _ Hall RTree.empty []) as (items & Hrun & Hitems).
  rewrite Hscan in Hrun. injection Hrun as -> ->.
  repeat split; assumption.
Qed.

(** *** Paths *)

Lemma append_cons (s : string) (c : ascii) (t : string) :
  ((s ++ String c EmptyString) ++ t = s ++ String c t)%string.
Proof.
  induction s as [| d s IH]; simpl; [reflexivity | now rewrite IH].
Qed.

Lemma append_assoc (s t u : string) :
  ((s ++ t) ++ u = s ++ (t ++ u))%string.
Proof.
  induction s as [| d s IH]; simpl; [reflexivity | now rewrite IH].
Qed.

Lemma is_empty_append (s t : string) :
  Str.is_empty t = false -> Str.is_empty (s ++ t) = false.
Proof.
  destruct s; simpl; auto.
Qed.

Lemma endswith_char_append (c : ascii) (s t : string) :
  Str.is_empty t = false ->
  Str.endswith_char c (s ++ t) = Str.endswith_char c t.
Proof.
  intros Ht. induction s as [| d s IH]; [reflexivity |].
  change (String d s ++ t)%string with (String d (s ++ t)).
  pose proof (is_empty_append s t Ht) as Hne.
  simpl. destruct (s ++ t)%string; [discriminate | exact IH].
Qed.

Lemma join2_relative (path b : string) :
  Str.startswith_char OsPath.sep b = false ->
  OsPath.join2 path b = (with_sep path ++ b)%string.
Proof.
  intros Hrel. unfold OsPath.join2, with_sep. rewrite Hrel.
  destruct (Str.is_empty path || Str.endswith_char OsPath.sep path);
    [reflexivity |].
  symmetry. apply append_cons.
Qed.

Lemma fileglob_shape (c : LandsatClass) (dir band0 : string) :
  plain_folder c = true ->
  fileglob c dir band0 =
    (with_sep dir ++ base_folder c ++ "/**_" ++ band0 ++ ".TIF")%string.
Proof.
  unfold plain_folder. rewrite !andb_true_iff, !negb_true_iff.
  intros [[Hne Hrel] Hend].
  unfold fileglob, OsPath.join. simpl fold_left.
  rewrite (join2_relative _ ("**_" ++ band0 ++ ".TIF")) by reflexivity.
  rewrite (join2_relative dir (base_folder c) Hrel).
  unfold with_sep at 1.
  rewrite (is_empty_append _ _ Hne), (endswith_char_append _ _ _ Hne), Hend.
  simpl orb. cbv iota.
  rewrite !append_assoc. reflexivity.
Qed.

(** *** File names *)

Lemma split_nonempty (sep : ascii) (s : string) : Str.split sep s <> [].
Proof.
  destruct s as [| c s]; simpl; [discriminate |].
  destruct (Ascii.eqb c sep); [discriminate |].
  destruct (Str.split sep s); discriminate.
Qed.

(** Splitting distributes over a separator in the middle. *)
Lemma split_append (sep : ascii) (d s : string) :
  Str.split sep (d ++ String sep s) = Str.split sep d ++ Str.split sep s.
Proof.
  induction d as [| c d IH]; simpl.
  - rewrite Ascii.eqb_refl. reflexivity.
  - destruct (Ascii.eqb c sep); [now rewrite IH |].
    rewrite IH. pose proof (split_nonempty sep d) as Hne.
    destruct (Str.split sep d) as [| t ts]; [contradiction | reflexivity].
Qed.

Lemma split_plain (sep : ascii) (s : string) :
  count_char sep s = 0%nat -> Str.split sep s = [s].
Proof.
  induction s as [| c s IH]; simpl; [reflexivity |].
  destruct (Ascii.eqb c sep); [discriminate |].
  intros H. rewrite (IH H). reflexivity.
Qed.

(** One more field than there are separators. *)
Lemma split_length (sep : ascii) (s : string) :
  List.length (Str.split sep s) = S (count_char sep s).
Proof.
  induction s as [| c s IH]; simpl; [reflexivity |].
  destruct (Ascii.eqb c sep); simpl; [now rewrite IH |].
  pose proof (split_nonempty sep s) as Hne.
  destruct (Str.split sep s) as [| t ts]; [contradiction |].
  simpl in *. exact IH.
Qed.

Lemma last_append {A : Type} (l1 l2 : list A) (d : A) :
  l2 <> [] -> last (l1 ++ l2) d = last l2 d.
Proof.
  intros Hne. induction l1 as [| x l1 IH]; [reflexivity |].
  simpl. destruct (l1 ++ l2) as [| y l] eqn:E; [| exact IH].
  destruct l1; [contradiction | discriminate].
Qed.

(** The base name of [dir/name] is [name] when [name] has no separator. *)
Lemma basename_join (dir name : string) :
  count_char OsPath.sep name = 0%nat ->
  OsPath.basename (dir ++ String OsPath.sep name) = name.
Proof.
  intros Hname. unfold OsPath.basename.
  rewrite split_append, last_append by apply split_nonempty.
  rewrite (split_plain _ _ Hname). reflexivity.
Qed.

(** ** Query resolution *)

(** C1. For a query that passes the bounds check, every raster read made by
    [__getitem__] is given the window taken directly from the query:
    column offset [query.minx], row offset [query.miny], width
    [query.maxx - query.minx], height [query.maxy - query.miny]; and when a
    tile is hit and its file opens, such a read is made. *)
Theorem C1_pixel_window_from_query (w : World) (self : Landsat)
    (query b : BoundingBox)
    (Hbounds : bounds w self = inr b)
    (Haccepted : intersects query b = true) :
  let window := {| col_off := minx query;
                   row_off := miny query;
                   width := maxx query - minx query;
                   height := maxy query - miny query |} in
  let trace := snd (run (getitem w self query)) in
  (forall path band win, In (EvRead path band win) trace -> win = window) /\
  (forall hit rest f,
     RTree.intersection (traverse w) (index self) query
       = Some (hit :: rest) ->
     rasterio_open w (RTree.object hit) = Some f ->
     In (EvRead (RTree.object hit) 1 window) trace).
Proof.
  intros window trace. subst trace.
  rewrite getitem_outcome, Hbounds, Haccepted. simpl negb. cbv iota.
  change (query_window query) with window.
  split.
  - intros path band win Hin.
    destruct (RTree.intersection (traverse w) (index self) query)
      as [[| hit rest] |]; try destruct Hin.
    cbv zeta in Hin.
    destruct (rasterio_open w (RTree.object hit)) as [f |]; [| destruct Hin].
    destruct (reader_read f 1 window); simpl in Hin;
      destruct Hin as [H | [H | [H | []]]]; congruence.
  - intros hit rest f Hhits Hopen. rewrite Hhits. cbv zeta.
    rewrite Hopen.
    destruct (reader_read f 1 window); simpl; auto.
Qed.

(** C2. With [b] the bounds of the dataset, [__getitem__] raises
    [IndexError] exactly when the query does not intersect [b]; the message
    carries the query and the bounds. A query that intersects the bounds
    never gets this error. *)
Theorem C2_out_of_range_iff (w : World) (self : Landsat)
    (query b : BoundingBox)
    (Hbounds : bounds w self = inr b) :
  (intersects query b = false ->
   run (getitem w self query) =
     (inl (IndexError [Lit "query: "; Fmt query;
                       Lit " is not within bounds of the index: ";
                       Fmt b]), [])) /\
  (intersects query b = true ->
   forall msg, fst (run (getitem w self query)) <> inl (IndexError msg)).
Proof.
  rewrite getitem_outcome, Hbounds.
  split; intros H; rewrite H; simpl negb; cbv iota.
  - reflexivity.
  - intros msg.
    destruct (RTree.intersection (traverse w) (index self) query)
      as [[| hit rest] |]; try discriminate.
    cbv zeta.
    destruct (rasterio_open w (RTree.object hit)) as [f |]; [| discriminate].
    destruct (reader_read f 1 (query_window query)); discriminate.
Qed.

(** C5. When the traversal produces several hits, [__getitem__] reads from
    exactly one tile, the first hit. If its file opens, the raster calls are
    one open, one read of band 1 and one close of that file, and the outcome
    is the cast array of that read (or its failure); if it does not open,
    the open error is raised and no other hit is tried. Every raster call is
    on that file, and the outcome is the same whatever the later hits
    are. *)
Theorem C5_first_hit_only (w : World) (self : Landsat)
    (query b : BoundingBox)
    (hit : RTree.Item) (rest : list RTree.Item)
    (Hbounds : bounds w self = inr b)
    (Haccepted : intersects query b = true)
    (Hhits : RTree.intersection (traverse w) (index self) query
             = Some (hit :: rest)) :
  let outcome := run (getitem w self query) in
  let path := RTree.object hit in
  (forall f,
     rasterio_open w path = Some f ->
     snd outcome = [EvOpen path; EvRead path 1 (query_window query);
                    EvClose path] /\
     fst outcome = match reader_read f 1 (query_window query) with
                   | Some a => inr [("image"%string, astype_int32 a)]
                   | None => inl (RasterioIOError path)
                   end) /\
  (rasterio_open w path = None ->
   outcome = (inl (RasterioIOError path), [])) /\
  (forall e, In e (snd outcome) -> event_path e = path) /\
  (List.length (filter is_open (snd outcome)) <= 1)%nat /\
  (List.length (filter is_read (snd outcome)) <= 1)%nat /\
  (forall self' b' rest',
     bounds w self' = inr b' ->
     intersects query b' = true ->
     RTree.intersection (traverse w) (index self') query
       = Some (hit :: rest') ->
     run (getitem w self' query) = outcome).
Proof.
  intros outcome path. subst outcome path.
  assert (Hlast : forall self' b' rest',
     bounds w self' = inr b' ->
     intersects query b' = true ->
     RTree.intersection (traverse w) (index self') query
       = Some (hit :: rest') ->
     run (getitem w self' query) = run (getitem w self query)).
  { intros self' b' rest' Hb' Ha' Hh'.
    rewrite !getitem_outcome, Hb', Ha', Hh', Hbounds, Haccepted, Hhits.
    reflexivity. }
  split; [| split; [| split; [| split; [| split]]]]; try exact Hlast;
    rewrite getitem_outcome, Hbounds, Haccepted, Hhits; simpl negb;
    cbv iota zeta.
  - intros f Hopen. rewrite Hopen.
    destruct (reader_read f 1 (query_window query)); split; reflexivity.
  - intros Hopen. rewrite Hopen. reflexivity.
  - destruct (rasterio_open w (RTree.object hit)) as [f |];
      [destruct (reader_read f 1 (query_window query)) |]; simpl;
      intros e He; repeat (destruct He as [<- | He]; [reflexivity |]);
      destruct He.
  - destruct (rasterio_open w (RTree.object hit)) as [f |];
      [destruct (reader_read f 1 (query_window query)) |]; simpl; lia.
  - destruct (rasterio_open w (RTree.object hit)) as [f |];
      [destruct (reader_read f 1 (query_window query)) |]; simpl; lia.
Qed.

(** C6. A query that succeeds returns one item, ["image"], holding the
    array read from band 1 of the first hit's file with every sample wrapped
    to a signed 32-bit integer: each returned sample fits 32 bits and is
    congruent to the sample read modulo 2^32, and no other band is read. *)
Theorem C6_band_one_as_int32 (w : World) (self : Landsat)
    (query : BoundingBox) (smp : sample) (trace : list event)
    (Hok : run (getitem w self query) = (inr smp, trace)) :
  exists hit rest f a,
    RTree.intersection (traverse w) (index self) query
      = Some (hit :: rest) /\
    rasterio_open w (RTree.object hit) = Some f /\
    reader_read f 1 (query_window query) = Some a /\
    smp = [("image"%string, map (map int32) a)] /\
    (forall path band win, In (EvRead path band win) trace -> band = 1) /\
    Forall (Forall fits_int32) (map (map int32) a) /\
    Forall2 (Forall2 (fun z z' => (z' - z) mod 2 ^ 32 = 0))
            a (map (map int32) a).
Proof.
  rewrite getitem_outcome in Hok.
  destruct (bounds w self) as [e | b]; [discriminate |].
  destruct (negb (intersects query b)); [discriminate |].
  destruct (RTree.intersection (traverse w) (index self) query)
    as [[| hit rest] |]; try discriminate.
  cbv zeta in Hok.
  destruct (rasterio_open w (RTree.object hit)) as [f |] eqn:Hopen;
    [| discriminate].
  destruct (reader_read f 1 (query_window query)) as [a |] eqn:Hread;
    [| discriminate].
  injection Hok as <- <-.
  exists hit, rest, f, a. repeat split; try reflexivity; try assumption.
  - intros path band win [H | [H | [H | []]]]; congruence.
  - apply Forall_forall. intros row Hrow.
    apply in_map_iff in Hrow as (row0 & <- & _).
    apply Forall_forall. intros z Hz.
    apply in_map_iff in Hz as (z0 & <- & _). apply int32_range.
  - clear Hread. induction a as [| row a IH]; simpl; constructor; [| exact IH].
    clear IH. induction row as [| z row IH]; simpl; constructor;
      [apply int32_congruent | exact IH].
Qed.


(** C9. [transforms] is stored and never applied: two datasets that differ
    only in [transforms] answer every query alike, and two constructions
    that differ only in the [transforms] argument build such datasets (or
    fail alike), so their answers to every query are equal. *)
Theorem C9_transforms_ignored (w w' : World) (c : LandsatClass)
    (dir : string) (names : list string)
    (t1 t2 : option (sample -> sample)) (query : BoundingBox) :
  (forall self,
     getitem w' (with_transforms self t1) query =
     getitem w' (with_transforms self t2) query) /\
  match run (init w c dir names t1), run (init w c dir names t2) with
  | (inr self1, tr1), (inr self2, tr2) =>
      transforms self1 = t1 /\ transforms self2 = t2 /\
      self2 = with_transforms self1 t2 /\
      run (getitem w' self1 query) = run (getitem w' self2 query)
  | (inl e1, tr1), (inl e2, tr2) => e1 = e2 /\ tr1 = tr2
  | _, _ => False
  end.
Proof.
  split; [reflexivity |].
  rewrite !init_outcome.
  destruct (getitem_list (effective_bands c names) 0) as [band0 |];
    [| split; reflexivity].
  unfold scan_for.
  destruct (for_each (iglob w (fileglob c dir band0)) (index_file w)
              RTree.empty []) as [[e | idx] tr].
  - split; reflexivity.
  - repeat split.
Qed.

(** ** Catalogue construction *)

(** C4. When the constructor returns, the index holds one entry per matched
    file, in the order of the matches: its box is
    [(minx, maxx, miny, maxy, timestamp, timestamp)] with
    [(minx, miny, maxx, maxy)] the bounds the raster reports and [timestamp]
    that of the date parsed with [%Y%m%d] from the field of index 3 of the
    base name split at underscores; every entry has [mint = maxt]. *)
Theorem C4_inserted_records (w : World) (c : LandsatClass) (dir : string)
    (names : list string) (t : option (sample -> sample))
    (self : Landsat) (trace : list event)
    (Hbuilt : run (init w c dir names t) = (inr self, trace)) :
  exists band0,
    getitem_list (effective_bands c names) 0 = Some band0 /\
    Forall2
      (fun filename it =>
         exists token time ts f minx miny maxx maxy,
           getitem_list (Str.split "_" (OsPath.basename filename)) 3
             = Some token /\
           strptime w token "%Y%m%d" = Some time /\
           timestamp w time = Some ts /\
           rasterio_open w filename = Some f /\
           reader_bounds f = (minx, miny, maxx, maxy) /\
           it = RTree.mkItem 0
                  (mkBoundingBox minx maxx miny maxy ts ts)
                  filename)
      (iglob w (fileglob c dir band0)) (index self) /\
    Forall (fun it => mint (RTree.bbox it) = maxt (RTree.bbox it))
           (index self).
Proof.
  destruct (init_returns w c dir names t self trace Hbuilt)
    as (band0 & Hband & _ & _ & Hitems & _).
  exists band0. split; [exact Hband |].
  assert (Hshape : Forall2
      (fun filename it =>
         exists token time ts f minx miny maxx maxy,
           getitem_list (Str.split "_" (OsPath.basename filename)) 3
             = Some token /\
           strptime w token "%Y%m%d" = Some time /\
           timestamp w time = Some ts /\
           rasterio_open w filename = Some f /\
           reader_bounds f = (minx, miny, maxx, maxy) /\
           it = RTree.mkItem 0
                  (mkBoundingBox minx maxx miny maxy ts ts)
                  filename)
      (iglob w (fileglob c dir band0)) (index self)).
  { refine (Forall2_impl _ _ Hitems). intros filename it Hins.
    destruct Hins as (token & time & ts & f & Htok & Htime & Hts & Hopen
                      & _ & ->).
    destruct (reader_bounds f) as [[[x0 y0] x1] y1] eqn:Hb.
    exists token, time, ts, f, x0, y0, x1, y1. repeat split; assumption. }
  split; [exact Hshape |].
  refine (Forall2_right _ _ _ _ _ Hshape). intros filename it Hins.
  destruct Hins as (token & time & ts & f & x0 & y0 & x1 & y1
                    & _ & _ & _ & _ & _ & ->).
  reflexivity.
Qed.

(** C3 (amended). The scan of the constructor has no skipping. A matched
    file is processed when its date field exists, parses and converts to a
    timestamp, the file opens and the index accepts its coordinates. When
    every matched file is so, the constructor returns and the index holds
    exactly one entry per matched file, in order, and only then does it
    return; the first matched file that is not so makes the constructor
    raise the exception of the failing step, and no dataset is built. *)
Theorem C3_scan_has_no_skipping (w : World) (c : LandsatClass) (dir : string)
    (names : list string) (t : option (sample -> sample)) (band0 : string)
    (Hband : getitem_list (effective_bands c names) 0 = Some band0) :
  let files := iglob w (fileglob c dir band0) in
  (forallb (valid_file w) files = true ->
   exists self trace,
     run (init w c dir names t) = (inr self, trace) /\
     map RTree.object (index self) = files /\
     List.length (index self) = List.length files) /\
  (forall good bad rest,
     files = good ++ bad :: rest ->
     forallb (valid_file w) good = true ->
     valid_file w bad = false ->
     exists trace,
       run (init w c dir names t) = (inl (scan_error w bad), trace)) /\
  ((exists self trace, run (init w c dir names t) = (inr self, trace)) ->
   forallb (valid_file w) files = true).
Proof.
  intros files. subst files. split; [| split].
  - intros Hall. rewrite init_outcome, Hband. unfold scan_for.
    destruct (scan_valid_trace w _ Hall RTree.empty [])
      as (items & Hrun & Hitems).
    rewrite Hrun. do 2 eexists. split; [reflexivity |].
    simpl index. simpl app.
    pose proof (inserted_objects w _ _ Hitems) as Hobj.
    split; [exact Hobj |].
    rewrite <- Hobj. symmetry. apply length_map.
  - intros good bad rest Hfiles Hgood Hbad.
    rewrite init_outcome, Hband. unfold scan_for. rewrite Hfiles.
    rewrite (scan_stops_trace w good bad rest Hgood Hbad RTree.empty []).
    eexists. reflexivity.
  - intros (self & trace & Hrun).
    destruct (init_returns w c dir names t self trace Hrun)
      as (band1 & Hband1 & _ & Hall & _).
    change (getitem_list (effective_bands c names) 0)
      with (hd_error (effective_bands c names)) in Hband.
    rewrite Hband in Hband1. injection Hband1 as <-. exact Hall.
Qed.

(** ** The index *)

(** C7 (the code at two inputs). The index of line 59 reads the six-tuple
    [(minx, maxx, miny, maxy, mint, maxt)] as three minima followed by three
    maxima. In the directory of two overlapping scenes of different dates,
    the boxes of the two tiles do not overlap on the time axis, yet the
    query of the first tile's box returns both. In the directory of the
    flat scene, the query overlaps the box of the only tile on all three
    closed axis intervals, yet the index returns nothing and the query
    raises [StopIteration]. *)
Theorem C7_index_reads_tuples_interleaved :
  index (Sample.built Sample.overlapping Landsat8)
    = [Sample.item_a; Sample.item_b] /\
  intersects (RTree.bbox Sample.item_a) (RTree.bbox Sample.item_b) = false /\
  RTree.intersection (traverse Sample.overlapping)
    [Sample.item_a; Sample.item_b] (RTree.bbox Sample.item_a)
    = Some [Sample.item_a; Sample.item_b] /\
  index (Sample.built Sample.flat Landsat8) = [Sample.item_d] /\
  intersects (RTree.bbox Sample.item_d) Sample.across_d = true /\
  RTree.intersection (traverse Sample.flat) [Sample.item_d] Sample.across_d
    = Some [] /\
  run (getitem Sample.flat (Sample.built Sample.flat Landsat8)
         Sample.across_d)
    = (inl StopIteration, []).
Proof.
  repeat split; vm_compute; reflexivity.
Qed.

(** ** Band selection *)

(** C10. What the constructor runs is fixed by the first effective band:
    with a non-empty [bands] argument it scans the files matched by the
    pattern of [bands[0]] and keeps [bands]; with an empty one it scans
    those of [band_names[0]] and [self.bands] is the whole [band_names];
    with neither it raises [IndexError]. The pattern is
    [**_<bands[0]>.TIF] joined to [os.path.join(root, base_folder)], which
    for the subclasses of the module is [root/base_folder/**_<b>.TIF]; the
    entries of a built index are the files the pattern matched, and two
    constructions whose effective band lists start alike index the same
    tiles. *)
Theorem C10_first_band_selects_tiles (w : World) (c : LandsatClass)
    (dir : string) (names : list string) (t : option (sample -> sample)) :
  run (init w c dir names t) =
    match names, band_names c with
    | n :: _, _ => scan_for w c dir names t n
    | [], b :: _ => scan_for w c dir (band_names c) t b
    | [], [] => (inl (IndexError [Lit "list index out of range"]), [])
    end /\
  (forall self trace,
     run (init w c dir names t) = (inr self, trace) ->
     bands self = match names with [] => band_names c | _ :: _ => names end /\
     exists band0,
       hd_error (bands self) = Some band0 /\
       map RTree.object (index self) =
         iglob w (OsPath.join dir [base_folder c;
                                   ("**_" ++ band0 ++ ".TIF")%string])) /\
  (forall band0,
     OsPath.join dir [base_folder c; ("**_" ++ band0 ++ ".TIF")%string] =
       (with_sep (OsPath.join dir [base_folder c])
        ++ "**_" ++ band0 ++ ".TIF")%string) /\
  (forall band0,
     plain_folder c = true ->
     OsPath.join dir [base_folder c; ("**_" ++ band0 ++ ".TIF")%string] =
       (with_sep dir ++ base_folder c ++ "/**_" ++ band0 ++ ".TIF")%string) /\
  Forall (fun c0 => plain_folder c0 = true)
         [Landsat1; Landsat2; Landsat3; Landsat4MSS; Landsat4TM; Landsat5MSS;
          Landsat5TM; Landsat7; Landsat8; Landsat9] /\
  (forall names',
     hd_error (effective_bands c names') = hd_error (effective_bands c names) ->
     match run (init w c dir names t), run (init w c dir names' t) with
     | (inr self1, tr1), (inr self2, tr2) =>
         index self1 = index self2 /\ tr1 = tr2
     | (inl e1, tr1), (inl e2, tr2) => e1 = e2 /\ tr1 = tr2
     | _, _ => False
     end).
Proof.
  split; [| split; [| split; [| split; [| split]]]].
  - rewrite init_outcome.
    destruct names as [| n names]; [| reflexivity].
    simpl. destruct (band_names c); reflexivity.
  - intros self trace Hrun.
    destruct (init_returns w c dir names t self trace Hrun)
      as (band0 & Hband & Hself & _ & Hitems & _).
    rewrite Hself. simpl bands. simpl index.
    split; [destruct names; reflexivity |].
    exists band0. split; [exact Hband |].
    apply (inserted_objects w _ _ Hitems).
  - intros band0. unfold OsPath.join. simpl fold_left.
    apply join2_relative. reflexivity.
  - intros band0 Hplain. apply (fileglob_shape c dir band0 Hplain).
  - repeat constructor.
  - intros names' Hsame. rewrite !init_outcome.
    change (getitem_list (effective_bands c names') 0)
      with (hd_error (effective_bands c names')).
    rewrite Hsame.
    change (hd_error (effective_bands c names))
      with (getitem_list (effective_bands c names) 0).
    destruct (getitem_list (effective_bands c names) 0) as [band0 |];
      [| split; reflexivity].
    unfold scan_for.
    destruct (for_each (iglob w (fileglob c dir band0)) (index_file w)
                RTree.empty []) as [[e | idx] tr]; split; reflexivity.
Qed.

(** ** Further properties: file names *)

(** X4. The date field is looked up in the base name: underscores in the
    directory part of a path (as in [landsat_8_9]) do not shift it. *)
Theorem X4_date_token_ignores_directory (dir name : string)
    (Hname : count_char "/" name = 0%nat) :
  date_token (dir ++ "/" ++ name) = nth_error (Str.split "_" name) 3.
Proof.
  unfold date_token, getitem_list.
  change (dir ++ "/" ++ name)%string with (dir ++ String OsPath.sep name)%string.
  rewrite (basename_join dir name Hname). reflexivity.
Qed.

(** X5. For a file named [a_b_c_d] or [a_b_c_d_...] in any directory, the
    fields [a], [b], [c], [d] holding no underscore, the date field is

    [d]. *)
Theorem X5_date_token_is_fourth_field (dir a b c d tail : string)
    (Ha : count_char "_" a = 0%nat) (Hb : count_char "_" b = 0%nat)
    (Hc : count_char "_" c = 0%nat) (Hd : count_char "_" d = 0%nat)
    (Htail : tail = EmptyString \/ exists r, tail = String "_" r)
    (Hname : count_char "/"
               (a ++ "_" ++ b ++ "_" ++ c ++ "_" ++ d ++ tail) = 0%nat) :
  date_token (dir ++ "/" ++ a ++ "_" ++ b ++ "_" ++ c ++ "_" ++ d ++ tail)
  = Some d.
Proof.
  unfold date_token, getitem_list.
  change (dir ++ "/" ++ a ++ "_" ++ b ++ "_" ++ c ++ "_" ++ d ++ tail)%string
    with (dir ++ String OsPath.sep
                   (a ++ "_" ++ b ++ "_" ++ c ++ "_" ++ d ++ tail))%string.
  rewrite (basename_join dir _ Hname).
  change (a ++ "_" ++ b ++ "_" ++ c ++ "_" ++ d ++ tail)%string
    with (a ++ String "_" (b ++ String "_" (c ++ String "_" (d ++ tail))))%string.
  rewrite !split_append.
  rewrite (split_plain _ a Ha), (split_plain _ b Hb), (split_plain _ c Hc).
  simpl.
  destruct Htail as [-> | [r ->]].
  - replace (d ++ "")%string with d
      by (clear; induction d as [| x d IH]; simpl; congruence).
    rewrite (split_plain _ d Hd). reflexivity.
  - rewrite split_append, (split_plain _ d Hd). reflexivity.
Qed.

(** X6. The loop body of [__init__] raises the list [IndexError] for a
    matched file exactly when its base name has fewer than three
    underscores; it then touches no file. *)
Theorem X6_index_error_iff_few_fields (w : World) (idx : RTree.Index)
    (filename : string) (tr : list event) :
  index_file w idx filename tr
    = (inl (IndexError [Lit "list index out of range"]), tr)
  <-> (count_char "_" (OsPath.basename filename) < 3)%nat.
Proof.
  rewrite index_file_outcome. unfold date_token, getitem_list.
  pose proof (split_length "_" (OsPath.basename filename)) as Hlen.
  destruct (nth_error (Str.split "_" (OsPath.basename filename)) 3)
    as [token |] eqn:Hnth.
  - assert (Hlt : (3 < List.length
                         (Str.split "_" (OsPath.basename filename)))%nat)
      by (apply nth_error_Some; congruence).
    split; [| lia].
    destruct (strptime w token date_format) as [time |]; [| discriminate].
    destruct (timestamp w time) as [ts |]; [| discriminate].
    destruct (rasterio_open w filename) as [f |]; [| discriminate].
    cbv zeta.
    destruct (RTree.coordinates_ok (coords_of (reader_bounds f) ts));
      discriminate.
  - apply nth_error_None in Hnth. split; [lia | reflexivity].
Qed.

(** ** Further properties: the scan of the constructor *)

(** X1. A constructor that returns has opened and closed every matched file
    once, in the order of the matches, each file being closed before the
    next is opened, and has read no pixel. *)
Theorem X1_build_opens_and_closes_each_file (w : World) (c : LandsatClass)
    (dir : string) (names : list string) (t : option (sample -> sample))
    (self : Landsat) (trace : list event)
    (Hbuilt : run (init w c dir names t) = (inr self, trace)) :
  exists band0,
    hd_error (bands self) = Some band0 /\
    trace = flat_map (fun f => [EvOpen f; EvClose f])
                     (iglob w (fileglob c dir band0)) /\
    filter is_read trace = [].
Proof.
  destruct (init_returns w c dir names t self trace Hbuilt)
    as (band0 & Hband & Hself & _ & _ & Htrace).
  exists band0. rewrite Hself. simpl bands.
  split; [exact Hband |]. split; [exact Htrace |].
  rewrite Htrace. generalize (iglob w (fileglob c dir band0)).
  intros files. induction files as [| f files IH]; simpl; auto.
Qed.

(** X2. When the first matched file on which a step of the loop body fails
    comes after files that are processed, the constructor raises the
    exception of that step. It has then opened and closed the files before
    the failing one, and the failing one too when the failing step is the
    insertion into the index, which happens with the file open; it has read
    nothing, leaves no file open and never touches the files after. *)
Theorem X2_build_stops_at_first_bad_file (w : World) (c : LandsatClass)
    (dir : string) (names : list string) (t : option (sample -> sample))
    (band0 : string) (good : list string) (bad : string)
    (rest : list string)
    (Hband : hd_error (effective_bands c names) = Some band0)
    (Hfiles : iglob w (fileglob c dir band0) = good ++ bad :: rest)
    (Hgood : forallb (valid_file w) good = true)
    (Hbad : valid_file w bad = false) :
  exists touched,
    run (init w c dir names t)
    = (inl (scan_error w bad),
       flat_map (fun f => [EvOpen f; EvClose f]) good ++ touched) /\
    (touched = [] \/
     touched = [EvOpen bad; EvClose bad] /\
     scan_error w bad
     = RTreeError "Coordinates must not have minimums more than maximums").
Proof.
  exists (scan_touch w bad). split.
  - rewrite init_outcome.
    change (getitem_list (effective_bands c names) 0)
      with (hd_error (effective_bands c names)).
    rewrite Hband. unfold scan_for.
    rewrite Hfiles, (scan_stops_trace w good bad rest Hgood Hbad).
    reflexivity.
  - unfold scan_touch, scan_error.
    destruct (date_token bad) as [token |]; [| now left].
    destruct (strptime w token date_format) as [time |]; [| now left].
    destruct (timestamp w time) as [ts |]; [| now left].
    destruct (rasterio_open w bad) as [f |]; [| now left].
    right. split; reflexivity.
Qed.

(** X12. For every sensor class of the module and every [bands] argument
    the first band exists, so the constructor returns exactly when every
    file the pattern matches is processed without error: its date field
    exists, parses and converts to a timestamp, the file opens and the index
    accepts its coordinates. *)
Theorem X12_module_classes_build_iff_files_valid (w : World)
    (c : LandsatClass) (dir : string) (names : list string)
    (t : option (sample -> sample))
    (Hclass : In c landsat_classes) :
  exists band0,
    hd_error (effective_bands c names) = Some band0 /\
    ((exists self trace, run (init w c dir names t) = (inr self, trace)) <->
     forallb (valid_file w) (iglob w (fileglob c dir band0)) = true).
Proof.
  assert (Hband : exists band0,
            hd_error (effective_bands c names) = Some band0).
  { destruct names as [| n names]; [| exists n; reflexivity].
    simpl in Hclass.
    repeat (destruct Hclass as [<- | Hclass]; [eexists; reflexivity |]).
    destruct Hclass. }
  destruct Hband as (band0 & Hband). exists band0.
  split; [exact Hband |]. split.
  - intros (self & trace & Hrun).
    destruct (init_returns w c dir names t self trace Hrun)
      as (band1 & Hband1 & _ & Hall & _).
    rewrite Hband in Hband1. injection Hband1 as <-. exact Hall.
  - intros Hall. rewrite init_outcome.
    change (getitem_list (effective_bands c names) 0)
      with (hd_error (effective_bands c names)).
    rewrite Hband. unfold scan_for.
    destruct (scan_valid_trace w _ Hall RTree.empty []) as (items & Hrun & _).
    rewrite Hrun. do 2 eexists. reflexivity.
Qed.

(** X13. Under a traversal that visits the stored entries, a query on a
    built dataset touches no file but one of those the pattern matched at
    construction. *)
Theorem X13_queries_touch_indexed_files_only (w w' : World)
    (c : LandsatClass) (dir : string) (names : list string)
    (t : option (sample -> sample)) (self : Landsat) (trace : list event)
    (query : BoundingBox)
    (Hbuilt : run (init w c dir names t) = (inr self, trace))
    (Htraversal : traversal_complete w') :
  exists band0,
    hd_error (bands self) = Some band0 /\
    forall e,
      In e (snd (run (getitem w' self query))) ->
      In (event_path e) (iglob w (fileglob c dir band0)).
Proof.
  destruct (init_returns w c dir names t self trace Hbuilt)
    as (band0 & Hband & Hself & _ & Hitems & _).
  exists band0. split; [rewrite Hself; exact Hband |].
  intros e He. rewrite getitem_outcome in He.
  destruct (bounds w' self) as [err | b]; [destruct He |].
  destruct (negb (intersects query b)); [destruct He |].
  destruct (RTree.intersection (traverse w') (index self) query)
    as [[| hit rest] |] eqn:Hhits; try destruct He.
  assert (Hin : In hit (index self)).
  { apply (Permutation_in _ (Htraversal (index self))).
    unfold RTree.intersection in Hhits.
    destruct (RTree.coordinates_ok query); [| discriminate].
    injection Hhits as Hhits.
    assert (H : In hit (filter
                  (fun it => RTree.regions_meet (RTree.bbox it) query)
                  (traverse w' (index self))))
      by (rewrite Hhits; left; reflexivity).
    apply filter_In in H. apply H. }
  assert (Hpath : event_path e = RTree.object hit).
  { cbv zeta in He.
    destruct (rasterio_open w' (RTree.object hit)) as [f |]; [| destruct He].
    destruct (reader_read f 1 (query_window query)); simpl in He;
      destruct He as [<- | [<- | [<- | []]]]; reflexivity. }
  rewrite Hpath, <- (inserted_objects w _ _ Hitems).
  apply in_map. exact Hin.
Qed.

(** ** Further properties: insert and look up *)

(** X8. Insert and look up: in a dataset the constructor built, the index
    accepts the box of every stored tile as a query and returns that tile
    among the hits. So a query with the box of a stored tile, whatever
    bounds the dataset reports, raises neither [StopIteration] nor
    [RTreeError]. *)
Theorem X8_own_box_query_is_answered (w w' : World) (c : LandsatClass)
    (dir : string) (names : list string) (t : option (sample -> sample))
    (self : Landsat) (trace : list event) (it : RTree.Item)
    (Hbuilt : run (init w c dir names t) = (inr self, trace))
    (Htraversal : traversal_complete w')
    (Hstored : In it (index self)) :
  (exists hits,
     RTree.intersection (traverse w') (index self) (RTree.bbox it)
       = Some hits /\
     In it hits) /\
  (forall b,
     bounds w' self = inr b ->
     fst (run (getitem w' self (RTree.bbox it))) <> inl StopIteration /\
     forall msg,
       fst (run (getitem w' self (RTree.bbox it))) <> inl (RTreeError msg)).
Proof.
  destruct (init_returns w c dir names t self trace Hbuilt)
    as (band0 & _ & _ & _ & Hitems & _).
  assert (Hok : RTree.coordinates_ok (RTree.bbox it) = true).
  { assert (Hall : Forall (fun i => RTree.coordinates_ok (RTree.bbox i) = true)
                          (index self)).
    { refine (Forall2_right _ _ _ _ _ Hitems). intros filename i Hins.
      destruct Hins as (token & time & ts & f & _ & _ & _ & _ & Hc & ->).
      exact Hc. }
    rewrite Forall_forall in Hall. exact (Hall it Hstored). }
  assert (Hhits : In it (filter
                    (fun i => RTree.regions_meet (RTree.bbox i) (RTree.bbox it))
                    (traverse w' (index self)))).
  { apply filter_In. split.
    - apply (Permutation_in _ (Permutation_sym (Htraversal (index self)))).
      exact Hstored.
    - rewrite regions_meet_self. exact Hok. }
  assert (Hsome : RTree.intersection (traverse w') (index self) (RTree.bbox it)
                  = Some (filter
                    (fun i => RTree.regions_meet (RTree.bbox i) (RTree.bbox it))
                    (traverse w' (index self)))).
  { unfold RTree.intersection. rewrite Hok. reflexivity. }
  split; [eexists; split; [exact Hsome | exact Hhits] |].
  intros b Hb. rewrite getitem_outcome, Hb, Hsome.
  destruct (negb (intersects (RTree.bbox it) b));
    [split; [| intros msg]; discriminate |].
  destruct (filter _ (traverse w' (index self))) as [| hit rest];
    [destruct Hhits |].
  cbv zeta.
  destruct (rasterio_open w' (RTree.object hit)) as [f |];
    [destruct (reader_read f 1 (query_window (RTree.bbox it))) |];
    (split; [| intros msg]; discriminate).
Qed.

(** ** Further properties: reading and casting *)

(** X3. A query leaves no file open: its raster calls are none at all, or
    one open, one read of band 1 and one close of the same file; the close
    is made also when the read fails, and the failure is then raised. *)
Theorem X3_query_closes_what_it_opens (w : World) (self : Landsat)
    (query : BoundingBox) :
  (snd (run (getitem w self query)) = [] \/
   exists path,
     snd (run (getitem w self query))
     = [EvOpen path; EvRead path 1 (query_window query); EvClose path]) /\
  (forall b hit rest f,
     bounds w self = inr b ->
     intersects query b = true ->
     RTree.intersection (traverse w) (index self) query
       = Some (hit :: rest) ->
     rasterio_open w (RTree.object hit) = Some f ->
     reader_read f 1 (query_window query) = None ->
     run (getitem w self query)
     = (inl (RasterioIOError (RTree.object hit)),
        [EvOpen (RTree.object hit);
         EvRead (RTree.object hit) 1 (query_window query);
         EvClose (RTree.object hit)])).
Proof.
  rewrite getitem_outcome. split.
  - destruct (bounds w self) as [e | b]; [now left |].
    destruct (negb (intersects query b)); [now left |].
    destruct (RTree.intersection (traverse w) (index self) query)
      as [[| hit rest] |]; try now left.
    cbv zeta.
    destruct (rasterio_open w (RTree.object hit)) as [f |]; [| now left].
    right. exists (RTree.object hit).
    destruct (reader_read f 1 (query_window query)); reflexivity.
  - intros b hit rest f Hb Hacc Hhits Hopen Hread.
    rewrite Hb, Hacc, Hhits. simpl negb. cbv iota zeta.
    rewrite Hopen, Hread. reflexivity.
Qed.

Lemma astype_int32_fixed (a : ndarray) :
  Forall (Forall fits_int32) a -> astype_int32 a = a.
Proof.
  unfold astype_int32. induction 1 as [| row a Hrow _ IH]; simpl;
    [reflexivity |].
  rewrite IH. f_equal.
  induction Hrow as [| z row Hz _ IHrow]; simpl; [reflexivity |].
  rewrite IHrow, (int32_fixed z Hz). reflexivity.
Qed.

(** X9. A successful query returns an image of the shape of the array read,
    and when every sample read fits 32 bits (as the 16-bit samples of a
    Landsat band do) the image is the array read, unchanged. *)
Theorem X9_samples_in_range_are_unchanged (w : World) (self : Landsat)
    (query : BoundingBox) (smp : sample) (trace : list event)
    (Hok : run (getitem w self query) = (inr smp, trace)) :
  exists hit rest f a img,
    RTree.intersection (traverse w) (index self) query
      = Some (hit :: rest) /\
    rasterio_open w (RTree.object hit) = Some f /\
    reader_read f 1 (query_window query) = Some a /\
    smp = [("image"%string, img)] /\
    map (@List.length Z) img = map (@List.length Z) a /\
    (Forall (Forall fits_int32) a -> img = a).
Proof.
  rewrite getitem_outcome in Hok.
  destruct (bounds w self) as [e | b]; [discriminate |].
  destruct (negb (intersects query b)); [discriminate |].
  destruct (RTree.intersection (traverse w) (index self) query)
    as [[| hit rest] |]; try discriminate.
  cbv zeta in Hok.
  destruct (rasterio_open w (RTree.object hit)) as [f |] eqn:Hopen;
    [| discriminate].
  destruct (reader_read f 1 (query_window query)) as [a |] eqn:Hread;
    [| discriminate].
  injection Hok as <- <-.
  exists hit, rest, f, a, (astype_int32 a).
  repeat split; try reflexivity; try assumption.
  - unfold astype_int32. rewrite map_map.
    apply map_ext. intros row. apply length_map.
  - apply astype_int32_fixed.
Qed.

(** ** Further properties: the root directory *)

Lemma with_sep_trailing (dir : string) :
  Str.is_empty dir = false ->
  Str.endswith_char OsPath.sep dir = false ->
  with_sep (dir ++ "/") = with_sep dir.
Proof.
  intros Hne Hend. unfold with_sep.
  rewrite (endswith_char_append OsPath.sep dir "/" eq_refl).
  rewrite Hne, Hend. simpl. rewrite orb_true_r. reflexivity.
Qed.

(** X11. For a subclass with a plain folder name, a root given with one
    trailing separator ([data/] for [data]) yields the same pattern, hence
    the same index and the same raster calls. *)
Theorem X11_trailing_separator_on_root (w : World) (c : LandsatClass)
    (dir : string) (names : list string) (t : option (sample -> sample))
    (Hplain : plain_folder c = true)
    (Hdir : Str.is_empty dir = false)
    (Hend : Str.endswith_char "/" dir = false) :
  (forall band0, fileglob c (dir ++ "/") band0 = fileglob c dir band0) /\
  match run (init w c (dir ++ "/") names t), run (init w c dir names t) with
  | (inr self1, tr1), (inr self2, tr2) =>
      index self1 = index self2 /\ tr1 = tr2
  | (inl e1, tr1), (inl e2, tr2) => e1 = e2 /\ tr1 = tr2
  | _, _ => False
  end.
Proof.
  assert (Hglob : forall band0,
            fileglob c (dir ++ "/") band0 = fileglob c dir band0).
  { intros band0. rewrite !(fileglob_shape c _ band0 Hplain).
    rewrite (with_sep_trailing dir Hdir Hend). reflexivity. }
  split; [exact Hglob |].
  rewrite !init_outcome.
  destruct (getitem_list (effective_bands c names) 0) as [band0 |];
    [| split; reflexivity].
  unfold scan_for. rewrite Hglob.
  destruct (for_each (iglob w (fileglob c dir band0)) (index_file w)
              RTree.empty []) as [[e | idx] tr]; split; reflexivity.
Qed.

(** ** Runs on the sample directory *)

Example built_overlapping :
  index (Sample.built Sample.overlapping Landsat8)
  = [Sample.item_a; Sample.item_b].
Proof. vm_compute. reflexivity. Qed.

Example built_gapped :
  index (Sample.built Sample.gapped Landsat8)
  = [Sample.item_a; Sample.item_c].
Proof. vm_compute. reflexivity. Qed.

(** The scenario of the window computation: tile bounds
    [(0, 100, 0, 100, T, T)], query [(10, 30, 20, 40, T, T)]. *)
Lemma C1_pixel_window_scenario :
  In (EvRead Sample.scene_a 1
        {| col_off := 10; row_off := 20; width := 20; height := 20 |})
     (snd (run (getitem Sample.overlapping
                  (Sample.built Sample.overlapping Landsat8)
                  Sample.inside_a))).
Proof.
  refine (proj2 (C1_pixel_window_from_query Sample.overlapping
                   (Sample.built Sample.overlapping Landsat8)
                   Sample.inside_a
                   (mkBoundingBox 0 150 0 150 Sample.t_0622 Sample.t_0708)
                   _ _)
                Sample.item_a [] (Sample.echo (0, 0, 100, 100)) _ _);
    reflexivity.
Defined.

Lemma C2_out_of_range_run :
  run (getitem Sample.gapped (Sample.built Sample.gapped Landsat8)
         Sample.far_away)
  = (inl (IndexError
            [Lit "query: "; Fmt Sample.far_away;
             Lit " is not within bounds of the index: ";
             Fmt (mkBoundingBox 0 300 0 250
                                Sample.t_0622 Sample.t_0622)]), [])
  /\ (forall msg,
        fst (run (getitem Sample.gapped
                    (Sample.built Sample.gapped Landsat8) Sample.in_gap))
        <> inl (IndexError msg)).
Proof.
  split.
  - refine (proj1 (C2_out_of_range_iff Sample.gapped
                     (Sample.built Sample.gapped Landsat8) Sample.far_away
                     (mkBoundingBox 0 300 0 250 Sample.t_0622 Sample.t_0622)
                     _) _); vm_compute; reflexivity.
  - refine (proj2 (C2_out_of_range_iff Sample.gapped
                     (Sample.built Sample.gapped Landsat8) Sample.in_gap
                     (mkBoundingBox 0 300 0 250 Sample.t_0622 Sample.t_0622)
                     _) _); vm_compute; reflexivity.
Defined.

(** C3 as stated fails: with a file whose name has no date field among the
    matches, the two valid files are not indexed and the stray one skipped;
    the constructor raises [IndexError] at the stray file and builds no
    dataset. *)
Lemma C3_stray_file_aborts_build :
  iglob Sample.with_stray (fileglob Landsat8 "data" "B1")
    = [Sample.scene_a; Sample.stray; Sample.scene_b] /\
  filter (valid_file Sample.with_stray)
         (iglob Sample.with_stray (fileglob Landsat8 "data" "B1"))
    = [Sample.scene_a; Sample.scene_b] /\
  date_token Sample.stray = None /\
  run (init Sample.with_stray Landsat8 "data" [] None)
    = (inl (IndexError [Lit "list index out of range"]),
       [EvOpen Sample.scene_a; EvClose Sample.scene_a]) /\
  ~ (exists self trace,
       run (init Sample.with_stray Landsat8 "data" [] None)
       = (inr self, trace)).
Proof.
  repeat split; try (vm_compute; reflexivity).
  intros (self & trace & H). vm_compute in H. discriminate.
Qed.

Lemma C3_scan_run :
  exists trace,
    run (init Sample.with_eastern Landsat8 "data" [] None)
    = (inl (RTreeError
              "Coordinates must not have minimums more than maximums"),
       trace).
Proof.
  refine (proj1 (proj2 (C3_scan_has_no_skipping Sample.with_eastern Landsat8
                          "data" [] None "B1" _))
                [Sample.scene_a] Sample.scene_e [Sample.scene_b] _ _ _);
    reflexivity.
Defined.

Lemma C4_records_run :
  Forall (fun it => mint (RTree.bbox it) = maxt (RTree.bbox it))
         (index (Sample.built Sample.overlapping Landsat8)).
Proof.
  destruct (C4_inserted_records Sample.overlapping Landsat8 "data" [] None
              (Sample.built Sample.overlapping Landsat8)
              [EvOpen Sample.scene_a; EvClose Sample.scene_a;
               EvOpen Sample.scene_b; EvClose Sample.scene_b])
    as (band0 & _ & _ & H).
  - vm_compute. reflexivity.
  - exact H.
Defined.

Lemma C5_first_hit_run :
  snd (run (getitem Sample.overlapping
              (Sample.built Sample.overlapping Landsat8) Sample.over_both))
  = [EvOpen Sample.scene_a;
     EvRead Sample.scene_a 1 (mkWindow 60 60 10 10);
     EvClose Sample.scene_a] /\
  fst (run (getitem Sample.overlapping
              (Sample.built Sample.overlapping Landsat8) Sample.over_both))
  = inr [("image"%string, [[60; 60]; [10; 10]; [-2147483628; -1]])].
Proof.
  refine (proj1 (C5_first_hit_only Sample.overlapping
                   (Sample.built Sample.overlapping Landsat8)
                   Sample.over_both
                   (mkBoundingBox 0 150 0 150 Sample.t_0622 Sample.t_0708)
                   Sample.item_a [Sample.item_b] _ _ _)
                (Sample.echo (0, 0, 100, 100)) _);
    reflexivity.
Defined.

Lemma C6_int32_run :
  exists hit rest f a,
    RTree.intersection (traverse Sample.overlapping)
      (index (Sample.built Sample.overlapping Landsat8)) Sample.inside_a
      = Some (hit :: rest) /\
    rasterio_open Sample.overlapping (RTree.object hit) = Some f /\
    reader_read f 1 (query_window Sample.inside_a) = Some a /\
    [("image"%string, [[10; 20]; [20; 20]; [-2147483628; -1]])]
      = [("image"%string, map (map int32) a)] /\
    (forall path band win,
       In (EvRead path band win)
          [EvOpen Sample.scene_a;
           EvRead Sample.scene_a 1 (mkWindow 10 20 20 20);
           EvClose Sample.scene_a] -> band = 1) /\
    Forall (Forall fits_int32) (map (map int32) a) /\
    Forall2 (Forall2 (fun z z' => (z' - z) mod 2 ^ 32 = 0))
            a (map (map int32) a).
Proof.
  refine (C6_band_one_as_int32 Sample.overlapping
            (Sample.built Sample.overlapping Landsat8) Sample.inside_a
            _ _ _).
  vm_compute. reflexivity.
Defined.



Lemma C10_default_bands_run :
  bands (Sample.built Sample.overlapping Landsat8) = band_names Landsat8 /\
  exists band0,
    hd_error (bands (Sample.built Sample.overlapping Landsat8))
      = Some band0 /\
    map RTree.object (index (Sample.built Sample.overlapping Landsat8)) =
      iglob Sample.overlapping
        (OsPath.join "data" [base_folder Landsat8;
                             ("**_" ++ band0 ++ ".TIF")%string]).
Proof.
  refine (proj1 (proj2 (C10_first_band_selects_tiles Sample.overlapping
                          Landsat8 "data" [] None))
                (Sample.built Sample.overlapping Landsat8)
                [EvOpen Sample.scene_a; EvClose Sample.scene_a;
                 EvOpen Sample.scene_b; EvClose Sample.scene_b] _).
  vm_compute. reflexivity.
Defined.

(** ** Further runs on the sample directory *)

Lemma X1_build_trace_run :
  exists band0,
    hd_error (bands (Sample.built Sample.overlapping Landsat8)) = Some band0 /\
    [EvOpen Sample.scene_a; EvClose Sample.scene_a;
     EvOpen Sample.scene_b; EvClose Sample.scene_b]
    = flat_map (fun f => [EvOpen f; EvClose f])
               (iglob Sample.overlapping (fileglob Landsat8 "data" band0)) /\
    filter is_read [EvOpen Sample.scene_a; EvClose Sample.scene_a;
                    EvOpen Sample.scene_b; EvClose Sample.scene_b] = [].
Proof.
  refine (X1_build_opens_and_closes_each_file Sample.overlapping Landsat8
            "data" [] None _ _ _).
  vm_compute. reflexivity.
Defined.

Lemma X2_build_stops_run :
  exists touched,
    run (init Sample.with_eastern Landsat8 "data" [] None)
    = (inl (scan_error Sample.with_eastern Sample.scene_e),
       flat_map (fun f => [EvOpen f; EvClose f]) [Sample.scene_a]
       ++ touched) /\
    (touched = [] \/
     touched = [EvOpen Sample.scene_e; EvClose Sample.scene_e] /\
     scan_error Sample.with_eastern Sample.scene_e
     = RTreeError "Coordinates must not have minimums more than maximums").
Proof.
  refine (X2_build_stops_at_first_bad_file Sample.with_eastern Landsat8 "data"
            [] None "B1" [Sample.scene_a] Sample.scene_e [Sample.scene_b]
            _ _ _ _);
    reflexivity.
Defined.

Lemma X3_failed_read_run :
  run (getitem Sample.truncated (Sample.built Sample.truncated Landsat8)
         Sample.inside_a)
  = (inl (RasterioIOError Sample.scene_a),
     [EvOpen Sample.scene_a;
      EvRead Sample.scene_a 1 (mkWindow 10 20 20 20);
      EvClose Sample.scene_a]).
Proof.
  refine (proj2 (X3_query_closes_what_it_opens Sample.truncated
                   (Sample.built Sample.truncated Landsat8) Sample.inside_a)
                (mkBoundingBox 0 100 0 100 Sample.t_0622 Sample.t_0622)
                Sample.item_a [] (Sample.broken (0, 0, 100, 100)) _ _ _ _ _);
    reflexivity.
Defined.

Lemma X4_date_token_run :
  date_token Sample.scene_a = Some "20210622"%string.
Proof.
  refine (X4_date_token_ignores_directory "data/landsat_8_9"
            "LC08_L1TP_023032_20210622_20210629_01_T1_B1.TIF" _).
  reflexivity.
Defined.

Lemma X5_fourth_field_run :
  date_token Sample.scene_b = Some "20210708"%string.
Proof.
  refine (X5_date_token_is_fourth_field "data/landsat_8_9"
            "LC08" "L1TP" "023033" "20210708" "_20210713_01_T1_B1.TIF"
            _ _ _ _ _ _); try reflexivity.
  right. exists "20210713_01_T1_B1.TIF"%string. reflexivity.
Defined.

Lemma X6_few_fields_run :
  index_file Sample.with_stray [] Sample.stray []
  = (inl (IndexError [Lit "list index out of range"]), []).
Proof.
  apply (proj2 (X6_index_error_iff_few_fields Sample.with_stray []
                  Sample.stray [])).
  vm_compute. lia.
Defined.

Lemma X8_own_box_run :
  fst (run (getitem Sample.overlapping
              (Sample.built Sample.overlapping Landsat8)
              (RTree.bbox Sample.item_b)))
  <> inl StopIteration.
Proof.
  refine (proj1 (proj2
            (X8_own_box_query_is_answered Sample.overlapping
               Sample.overlapping Landsat8 "data" [] None
               (Sample.built Sample.overlapping Landsat8)
               [EvOpen Sample.scene_a; EvClose Sample.scene_a;
                EvOpen Sample.scene_b; EvClose Sample.scene_b]
               Sample.item_b _ _ _)
            (mkBoundingBox 0 150 0 150 Sample.t_0622 Sample.t_0708) _)).
  - vm_compute. reflexivity.
  - intros idx. apply Permutation_refl.
  - vm_compute. auto.
  - vm_compute. reflexivity.
Defined.

Lemma X9_unchanged_run :
  exists hit rest f a img,
    RTree.intersection (traverse Sample.overlapping)
      (index (Sample.built Sample.overlapping Landsat8)) Sample.inside_a
      = Some (hit :: rest) /\
    rasterio_open Sample.overlapping (RTree.object hit) = Some f /\
    reader_read f 1 (query_window Sample.inside_a) = Some a /\
    [("image"%string, [[10; 20]; [20; 20]; [-2147483628; -1]])]
      = [("image"%string, img)] /\
    map (@List.length Z) img = map (@List.length Z) a /\
    (Forall (Forall fits_int32) a -> img = a).
Proof.
  refine (X9_samples_in_range_are_unchanged Sample.overlapping
            (Sample.built Sample.overlapping Landsat8) Sample.inside_a
            _ [EvOpen Sample.scene_a;
               EvRead Sample.scene_a 1 (mkWindow 10 20 20 20);
               EvClose Sample.scene_a] _).
  vm_compute. reflexivity.
Defined.

Lemma X11_trailing_separator_run :
  fileglob Landsat8 "data/" "B1" = fileglob Landsat8 "data" "B1".
Proof.
  refine (proj1 (X11_trailing_separator_on_root Sample.overlapping Landsat8
                   "data" [] None _ _ _) "B1"%string); reflexivity.
Defined.

Lemma X12_module_class_run :
  exists band0,
    hd_error (effective_bands Landsat8 []) = Some band0 /\
    ((exists self trace,
        run (init Sample.with_year_one Landsat8 "data" [] None)
        = (inr self, trace)) <->
     forallb (valid_file Sample.with_year_one)
             (iglob Sample.with_year_one (fileglob Landsat8 "data" band0))
     = true).
Proof.
  refine (X12_module_classes_build_iff_files_valid Sample.with_year_one
            Landsat8 "data" [] None _).
  vm_compute. auto 10.
Defined.

Lemma X13_indexed_files_only_run :
  exists band0,
    hd_error (bands (Sample.built Sample.overlapping Landsat8))
      = Some band0 /\
    forall e,
      In e (snd (run (getitem Sample.overlapping
                        (Sample.built Sample.overlapping Landsat8)
                        Sample.over_both))) ->
      In (event_path e)
         (iglob Sample.overlapping (fileglob Landsat8 "data" band0)).
Proof.
  refine (X13_queries_touch_indexed_files_only Sample.overlapping
            Sample.overlapping Landsat8 "data" [] None
            (Sample.built Sample.overlapping Landsat8)
            [EvOpen Sample.scene_a; EvClose Sample.scene_a;
             EvOpen Sample.scene_b; EvClose Sample.scene_b]
            Sample.over_both _ _).
  - vm_compute. reflexivity.
  - intros idx. apply Permutation_refl.
Defined.
